(** * qutebrowser: the command dispatcher of [qutebrowser/app.py]

    A shallow embedding of [QuteBrowser.cmd_handler], of the wiring made by
    [QuteBrowser.init_cmds] and of [QuteBrowser.pyeval], together with models
    of the two collaborators the application imports but does not define
    (the command-line parser and the key-sequence matcher), and the
    properties of the command pipeline established on them; then the
    exception hooks and the start-up sequence ([__init__], [initlog],
    [init_cmds], [python_hacks]) with their properties. *)

From Stdlib Require Import ZArith NArith Ascii String List Bool Lia.
From stdpp Require Import base option list strings gmap fin_maps.

Local Open Scope string_scope.

(** ** Python dictionaries written as literals *)

(** [{k1: v1, k2: v2, ...}] evaluates its items from left to right and stores
    each one in turn, so a key that is written twice keeps the value of its
    last occurrence. *)
Definition dict_literal {V : Type} (items : list (string * V)) : gmap string V :=
  foldl (fun d kv => <[kv.1 := kv.2]> d) ∅ items.

(** The same lookup on the item list: the last item with the key. *)
Fixpoint last_binding {V : Type} (k : string) (acc : option V)
    (items : list (string * V)) : option V :=
  match items with
  | [] => acc
  | (k', v) :: items' =>
      last_binding k (if decide (k' = k) then Some v else acc) items'
  end.

Module Dispatch.

(** ** Data *)

(** The callables that [cmd_handler] places in its table: bound methods of
    the tab widget ([self.mainwindow.tabs]) and of the application. *)
Inductive handler : Type :=
  | tabs_openurl
  | tabs_tabopen
  | app_quit
  | tabs_cur_close
  | tabs_switch_prev
  | tabs_switch_next
  | tabs_cur_reload
  | tabs_cur_stop
  | tabs_cur_back
  | tabs_cur_forward
  | tabs_cur_print
  | tabs_cur_scroll
  | tabs_cur_scroll_percent_x
  | tabs_cur_scroll_percent_y
  | tabs_undo_close
  | app_pyeval.

#[global] Instance handler_eq_dec : EqDecision handler.
Proof. solve_decision. Defined.

(** The command object that emitted the signal, [self.sender()].  The only
    attribute [cmd_handler] reads from it is [count], which says whether the
    command supports a count. *)
Record Command : Type := mkCommand { count : bool }.

(** What can go wrong.  [KeyError] and [IndexError] are the Python exceptions
    the handler can raise by itself; the other five are the interaction-time
    errors named by the specification. *)
Inductive error : Type :=
  | KeyError (key : string)
  | IndexError
  | NoMatchError
  | UnknownCommandError
  | CountNotSupportedError
  | EmptyCommandError
  | MalformedCountError.

(** A Python call of [h] with the unpacked positional arguments [args], with
    or without the keyword [count=c].  [kw_count] is [None]
    when the call has no [count] keyword, and [Some c] when it has one, where
    [c] is the value passed: an integer or Python's [None]. *)
Record call : Type := mkCall {
  callee   : handler;
  pos_args : list string;
  kw_count : option (option Z)
}.

(** ** The handler table, lines 142-159 *)

Definition handler_items : list (string * handler) :=
  [ ("open",          tabs_openurl);
    ("tabopen",       tabs_tabopen);
    ("quit",          app_quit);
    ("tabclose",      tabs_cur_close);
    ("tabprev",       tabs_switch_prev);
    ("tabnext",       tabs_switch_next);
    ("reload",        tabs_cur_reload);
    ("stop",          tabs_cur_stop);
    ("back",          tabs_cur_back);
    ("forward",       tabs_cur_forward);
    ("print",         tabs_cur_print);
    ("scroll",        tabs_cur_scroll);
    ("scroll_perc_y", tabs_cur_scroll_percent_x);
    ("scroll_perc_y", tabs_cur_scroll_percent_y);
    ("undo",          tabs_undo_close);
    ("pyeval",        app_pyeval) ].

Definition handlers : gmap string handler := dict_literal handler_items.

(** The table as it is once the literal has been evaluated: fifteen keys,
    [scroll_perc_y] with its second value. *)
Definition handler_table : list (string * handler) :=
  [ ("open",          tabs_openurl);
    ("tabopen",       tabs_tabopen);
    ("quit",          app_quit);
    ("tabclose",      tabs_cur_close);
    ("tabprev",       tabs_switch_prev);
    ("tabnext",       tabs_switch_next);
    ("reload",        tabs_cur_reload);
    ("stop",          tabs_cur_stop);
    ("back",          tabs_cur_back);
    ("forward",       tabs_cur_forward);
    ("print",         tabs_cur_print);
    ("scroll",        tabs_cur_scroll);
    ("scroll_perc_y", tabs_cur_scroll_percent_y);
    ("undo",          tabs_undo_close);
    ("pyeval",        app_pyeval) ].

(** ** [cmd_handler], lines 130-166

    [tpl] is the pair [(count, argv)].  The last statement of the method is
    the call of the handler, so the method's result is that call, or the
    exception raised before it.  [inr c] says that the call [c] is made;
    what the action then does, a [TypeError] for arguments that do not fit
    its parameters included, is not part of this result. *)
Definition cmd_handler (sender : Command) (tpl : option Z * list string)
    : error + call :=
  let '(cnt, argv) := tpl in
  match argv with
  | [] => inl IndexError                          (* cmd = argv[0] *)
  | cmd :: args =>                                (* args = argv[1:] *)
      match handlers !! cmd with
      | None => inl (KeyError cmd)                (* handler = handlers[cmd] *)
      | Some h =>
          if count sender
          then inr (mkCall h args (Some cnt))     (* handler with args, count=count *)
          else inr (mkCall h args None)           (* handler with args only *)
      end
  end.

(** The handler an invocation reaches, if it reaches one. *)
Definition invoked (sender : Command) (tpl : option Z * list string)
    : option handler :=
  match cmd_handler sender tpl with
  | inr c => Some (callee c)
  | inl _ => None
  end.

End Dispatch.

Import Dispatch.

(** ** The wiring of commands to the handler, [init_cmds] lines 120-124 *)

Module Wiring.

(** What an observer of the application can see of one command invocation.
    [init_cmds] connects the signal of every registered command to
    [cmd_handler], so the handler runs as the subscriber of that signal, with
    the emitting command as [self.sender()].  [ErrorDisplayed] is the
    notification interface of the application: [__init__] (lines 57-59)
    connects the [error] signals of the two parsers to
    [mainwindow.status.disp_error].  An exception that leaves a slot is not
    seen by the emitter of the signal; it is handed to [sys.excepthook],
    which [python_hacks] sets to [exception_hook]. *)
Inductive event : Type :=
  | SignalEmitted (sender : Command) (tpl : option Z * list string)
  | HandlerCalled (c : call)
  | ErrorDisplayed (e : error)
  | ExceptHook (e : error).

(** One emission of a command's signal with the payload [tpl]: the signal
    fires, then the connected slot [cmd_handler] runs. *)
Definition emit (sender : Command) (tpl : option Z * list string) : list event :=
  SignalEmitted sender tpl ::
  match cmd_handler sender tpl with
  | inr c => [HandlerCalled c]
  | inl e => [ExceptHook e]
  end.

Definition is_notification (ev : event) : bool :=
  match ev with ErrorDisplayed _ => true | _ => false end.

Definition is_signal (ev : event) : bool :=
  match ev with SignalEmitted _ _ => true | _ => false end.

Definition is_call (ev : event) : bool :=
  match ev with HandlerCalled _ => true | _ => false end.

(** Position of the first event of a kind in a trace. *)
Fixpoint position (p : event -> bool) (tr : list event) : option nat :=
  match tr with
  | [] => None
  | ev :: tr' => if p ev then Some 0 else S <$> position p tr'
  end.

End Wiring.

Import Wiring.

(** ** [pyeval], lines 168-180 *)

Module PyEval.

(** A raised Python exception, as far as [pyeval] looks at it: the name of
    its class ([e.__class__.__name__]), the message it was raised with and
    whether it is an instance of [Exception], which is what
    [except Exception] tests.  [SystemExit], [KeyboardInterrupt] and
    [GeneratorExit] derive from [BaseException] only.  The text [str(e)] is
    not a field: it is computed by a call, which can raise. *)
Record exception : Type := mkException {
  exc_class_name   : string;
  exc_message      : string;
  exc_is_Exception : bool
}.

(** The result of a Python computation: a value, or a raised exception. *)
Inductive result (A : Type) : Type :=
  | Returned (a : A)
  | Raised (e : exception).
Arguments Returned {A} a.
Arguments Raised {A} e.

#[global] Instance result_ret : MRet result := fun A a => Returned a.

#[global] Instance result_bind : MBind result := fun A B k m =>
  match m with
  | Returned a => k a
  | Raised e => Raised e
  end.

(** [try: body except Exception as e: handler(e)].  The handler runs
    outside the [try], so what it raises is propagated. *)
Definition try_except_Exception {A : Type} (body : result A)
    (handler : exception -> result A) : result A :=
  match body with
  | Returned a => Returned a
  | Raised e => if exc_is_Exception e then handler e else Raised e
  end.

(** [sep.join(parts)] *)
Definition join (sep : string) (parts : list string) : string :=
  String.concat sep parts.

(** What the method does to the current tab. *)
Inductive tab_effect : Type :=
  | setUrl (url : string)
  | setContent (data : string) (mime : string).

(** [tab.setUrl] when [currentWidget()] gave [None]. *)
Definition AttributeError_None : exception :=
  mkException "AttributeError" "'NoneType' object has no attribute 'setUrl'" true.

Section Evaluator.

(** The Python values, and what the method calls and does not define:
    [eval], which evaluates the string in the scope of the method; [repr];
    [str] on an exception; [out.encode('UTF-8')]; and
    [self.mainwindow.tabs.currentWidget()], which is [None] when there is
    no current tab.  Each of the calls can raise. *)
Variable value : Type.
Variable eval : string -> result value.
Variable repr : value -> result string.
Variable str : exception -> result string.
Variable encode : string -> result string.
Variable currentWidget : option unit.

(** Lines 170-174: the text to display.  [str(e)] is called in the
    [except] clause, where nothing catches what it raises. *)
Definition pyeval_out (s : string) : result string :=
  try_except_Exception
    (r ← eval s; repr r)
    (fun e => text ← str e; Returned (join ": " [exc_class_name e; text])).

(** Lines 178-180, which are outside the [try]: with no current tab
    [tab.setUrl] raises [AttributeError]; the URL is set before the text is
    encoded, so a failure of the encoding leaves the URL set. *)
Definition display (out : string) : list tab_effect * result unit :=
  match currentWidget with
  | None => ([], Raised AttributeError_None)
  | Some _ =>
      match encode out with
      | Raised e => ([setUrl "about:pyeval"], Raised e)
      | Returned data =>
          ([setUrl "about:pyeval"; setContent data "text/plain"], Returned tt)
      end
  end.

(** The whole method: what it did to the tab, and how it ended. *)
Definition pyeval (s : string) : list tab_effect * result unit :=
  match pyeval_out s with
  | Raised e => ([], Raised e)
  | Returned out => display out
  end.

End Evaluator.


(** [1/0] raises [ZeroDivisionError]. *)
Definition ZeroDivisionError_ : exception :=
  mkException "ZeroDivisionError" "division by zero" true.

(** [str] on an exception of a builtin class: its message. *)
Definition str_message (e : exception) : result string :=
  Returned (exc_message e).

(** An exception whose class defines [__str__] as [return 1/0]. *)
Definition BadStr : exception := mkException "BadStr" "" true.

Definition str_BadStr (e : exception) : result string :=
  if decide (exc_class_name e = "BadStr") then Raised ZeroDivisionError_
  else Returned (exc_message e).

End PyEval.

(** ** The command-line parser *)

Module Parser.

Local Open Scope char_scope.

(** Modelled from the spec: the whitespace that delimits the tokens of a
    command line (section 4.3).  The parser is [cmdutils.CommandParser],
    which this file imports (line 10) and does not define. *)
Definition is_space (c : ascii) : bool :=
  match c with
  | " " | "009" | "010" | "011" | "012" | "013" => true
  | _ => false
  end.

(** Modelled from the spec: a decimal digit of a count (section 4.3). *)
Definition is_digit (c : ascii) : bool :=
  match c with
  | "0" | "1" | "2" | "3" | "4" | "5" | "6" | "7" | "8" | "9" => true
  | _ => false
  end.

Local Open Scope string_scope.

(** Modelled from the spec: a run of decimal digits (section 4.3). *)
Fixpoint all_digits (s : string) : bool :=
  match s with
  | EmptyString => true
  | String c s' => is_digit c && all_digits s'
  end.

(** Modelled from the spec: the unsigned integer a run of digits denotes
    (section 4.3), read from the left with [acc] the value so far. *)
Fixpoint digits_value (acc : N) (s : string) : N :=
  match s with
  | EmptyString => acc
  | String c s' => digits_value (10 * acc + (N_of_ascii c - 48)) s'
  end.

(** Modelled from the spec: a finished token, if any (section 4.3). *)
Definition flush (cur : string) : list string :=
  match cur with
  | EmptyString => []
  | _ => [cur]
  end.

(** Modelled from the spec: the whitespace-delimited tokens of a line
    (section 4.3, no quoting); [cur] is the token being read. *)
Fixpoint tokens_from (cur : string) (s : string) : list string :=
  match s with
  | EmptyString => flush cur
  | String c s' =>
      if is_space c then flush cur ++ tokens_from EmptyString s'
      else tokens_from (cur ++ String c EmptyString) s'
  end.

(** A string of whitespace only, and a string with no whitespace: what may
    surround a token, and what a token is made of. *)
Fixpoint all_space (s : string) : bool :=
  match s with
  | EmptyString => true
  | String c s' => is_space c && all_space s'
  end.

Fixpoint no_space (s : string) : bool :=
  match s with
  | EmptyString => true
  | String c s' => negb (is_space c) && no_space s'
  end.

(** Modelled from the spec: the ParsedInvocation of section 3. *)
Record ParsedInvocation : Type := mkInvocation {
  inv_count : option N;
  inv_name  : string;
  inv_args  : list string
}.

(** Modelled from the spec: the Command-Line Parser of section 4.3.  A first
    token made of digits is the count, the next token is the name and the
    other tokens are the arguments; no token at all is [EmptyCommandError],
    a count with nothing after it is [MalformedCountError]. *)
Definition parse_line (line : string) : error + ParsedInvocation :=
  match tokens_from "" line with
  | [] => inl EmptyCommandError
  | t :: rest =>
      if all_digits t then
        match rest with
        | [] => inl MalformedCountError
        | name :: args => inr (mkInvocation (Some (digits_value 0 t)) name args)
        end
      else inr (mkInvocation None t rest)
  end.

(** The tuple [cmd_handler] receives for an invocation: [(count, argv)] with
    [argv = [cmd, arg, ...]], as its docstring has it. *)
Definition invocation_tpl (inv : ParsedInvocation) : option Z * list string :=
  (Z.of_N <$> inv_count inv, inv_name inv :: inv_args inv).

(** A command line, parsed and handed to [cmd_handler] by the command
    [sender]. *)
Definition dispatch_line (sender : Command) (line : string) : error + call :=
  match parse_line line with
  | inl e => inl e
  | inr inv => cmd_handler sender (invocation_tpl inv)
  end.

End Parser.

Import Parser.

(** ** The key-sequence matcher *)

Module Matcher.

(** Modelled from the spec: the MatcherState of section 3.  The matcher is
    [qutebrowser.commands.keys.KeyParser], which this file imports (line 13)
    and does not define. *)
Record MatcherState : Type := mkState {
  pending_digits : string;
  pending_keys   : list string
}.

(** Modelled from the spec: the initial state, both accumulators empty. *)
Definition Idle : MatcherState := mkState "" [].

(** Modelled from the spec: a key press carrying a key token, or the
    designated cancel key (section 4.2, transition 4). *)
Inductive key_event : Type :=
  | Key (tok : string)
  | Cancel.

(** Modelled from the spec: what one event makes the matcher emit: nothing,
    a resolved command line with its count, or [NoMatchError]. *)
Inductive emission : Type :=
  | Silent
  | Resolved (cnt : option N) (cmdline : string)
  | NoMatch.

(** Modelled from the spec: the digit a key token stands for, if it is one
    (section 4.2, transition 1). *)
Definition digit_of (tok : string) : option ascii :=
  match tok with
  | String c EmptyString => if is_digit c then Some c else None
  | _ => None
  end.

(** Modelled from the spec: transitions 1 and 2 of section 4.2.  A digit
    extends the count while no key token is pending, unless it is a lone
    leading zero; any other token extends the key sequence. *)
Definition append (st : MatcherState) (tok : string) : MatcherState :=
  match pending_keys st, digit_of tok with
  | [], Some d =>
      if negb (bool_decide (pending_digits st = ""))
         || negb (bool_decide (d = "0"%char))
      then mkState (pending_digits st ++ String d EmptyString) []
      else mkState (pending_digits st) [tok]
  | _, _ => mkState (pending_digits st) (pending_keys st ++ [tok])
  end.

(** Modelled from the spec: the binding whose sequence is exactly [keys]. *)
Definition exact (table : list (list string * string)) (keys : list string)
    : option string :=
  snd <$> List.find (fun b => bool_decide (b.1 = keys)) table.

(** Modelled from the spec: [p] is a prefix of [l]. *)
Fixpoint prefixb (p l : list string) : bool :=
  match p, l with
  | [], _ => true
  | x :: p', y :: l' => bool_decide (x = y) && prefixb p' l'
  | _ :: _, [] => false
  end.

(** Modelled from the spec: some binding has [keys] as a strict prefix. *)
Definition has_longer (table : list (list string * string))
    (keys : list string) : bool :=
  existsb (fun b => prefixb keys b.1 && negb (bool_decide (b.1 = keys))) table.

(** Modelled from the spec: the count of section 4.2, absent when no digit
    was pressed. *)
Definition count_of (digits : string) : option N :=
  match digits with
  | EmptyString => None
  | _ => Some (digits_value 0 digits)
  end.

(** Modelled from the spec: the remembered fallback of section 4.2, the
    exact match of the longest strict prefix of the pending keys. *)
Fixpoint fallback_from (table : list (list string * string))
    (seen rest : list string) (best : option string) : option string :=
  match rest with
  | [] => best
  | k :: rest' =>
      fallback_from table (seen ++ [k]) rest'
        (match exact table seen with Some c => Some c | None => best end)
  end.

(** Modelled from the spec: transitions 3 and 4 of section 4.2.
    [use_fallback] chooses between the two readings the specification gives
    of a dead end that follows a remembered exact match: section 4.2 emits
    [NoMatchError] ([false]), its design note resolves the shorter binding
    ([true]). *)
Definition feed (table : list (list string * string)) (use_fallback : bool)
    (st : MatcherState) (e : key_event) : MatcherState * emission :=
  match e with
  | Cancel => (Idle, Silent)
  | Key tok =>
      let st' := append st tok in
      let keys := pending_keys st' in
      match exact table keys, has_longer table keys with
      | Some cmdline, false =>
          (Idle, Resolved (count_of (pending_digits st')) cmdline)
      | Some _, true => (st', Silent)
      | None, true => (st', Silent)
      | None, false =>
          (Idle,
           match (if use_fallback then fallback_from table [] keys None
                  else None) with
           | Some cmdline => Resolved (count_of (pending_digits st')) cmdline
           | None => NoMatch
           end)
      end
  end.

(** Modelled from the spec: the matcher fed a sequence of events, with the
    emissions in order. *)
Fixpoint feed_all (table : list (list string * string)) (use_fallback : bool)
    (st : MatcherState) (es : list key_event) : MatcherState * list emission :=
  match es with
  | [] => (st, [])
  | e :: es' =>
      let '(st1, out) := feed table use_fallback st e in
      let '(st2, outs) := feed_all table use_fallback st1 es' in
      (st2, out :: outs)
  end.

(** The two bindings of the example of section 8. *)
Definition gg_table : list (list string * string) :=
  [ (["g"; "g"], "scroll top"); (["g"; "~"], "something-else") ].

End Matcher.

Import Matcher.

(** ** Error notifications *)

Module Pipeline.


(** Modelled from the spec: the handling of one command line by the absent
    [cmdutils.CommandParser] ([commandparser.run], the slot of [got_cmd] at
    line 54).  A parse failure is delivered on the parser's [error] signal
    (sections 6 and 7), which line 57 connects to
    [mainwindow.status.disp_error]; a line that parses makes the command
    [sender] emit its signal, whose subscriber is [cmd_handler]. *)
Definition run_line (sender : Command) (line : string) : list event :=
  match parse_line line with
  | inl e => [ErrorDisplayed e]
  | inr inv => emit sender (invocation_tpl inv)
  end.

(** The error with which the handling of a line fails, if it fails: a parse
    error, or the exception of the dispatcher. *)
Definition line_error (sender : Command) (line : string) : option error :=
  match dispatch_line sender line with
  | inl e => Some e
  | inr _ => None
  end.

(** Modelled from the spec: the handling of one key event by the absent
    [KeyParser] ([keyparser.handle], the slot of [keypress] at line 52).
    [NoMatchError] is delivered as an error signal (sections 4.2 and 6),
    which lines 58-59 connect to [mainwindow.status.disp_error]; a resolved
    command line goes on to the command-line parser, as any line. *)
Definition handle_key (table : list (list string * string)) (use_fallback : bool)
    (st : MatcherState) (ev : key_event) : MatcherState * list event :=
  let '(st', out) := feed table use_fallback st ev in
  (st', match out with
        | NoMatch => [ErrorDisplayed NoMatchError]
        | _ => []
        end).

(** The error one key event ends in, if it does. *)
Definition key_error (table : list (list string * string)) (use_fallback : bool)
    (st : MatcherState) (ev : key_event) : option error :=
  match (feed table use_fallback st ev).2 with
  | NoMatch => Some NoMatchError
  | _ => None
  end.


End Pipeline.

(** ** The exception hooks, lines 26-32, 66-83 and 85-88 *)

Module Hooks.

(** The values that reach a hook: the application object, with the text its
    tabs give for [url().url()], or [None] for a tab where that raises; and
    any other object (an exception type, an exception, a traceback). *)
Inductive value : Type :=
  | App (tabs : list (option string))
  | Other.

(** What a hook does that can be seen from outside. *)
Inductive effect : Type :=
  | PrintTraceback                (* sys.__excepthook__(exctype, value, traceback) *)
  | Print (line : string)
  | Exit (status : Z).           (* self.exit(status) *)

(** The exceptions of the call of a hook and of its body. *)
Inductive raised : Type :=
  | TypeError
  | NameError (name : string)
  | AttributeError.

(** A function written with [def]: its parameters, which are all positional
    and have no default, and its body, run on the local variables that the
    call binds. *)
Record function : Type := mkFunction {
  params : list string;
  body   : gmap string value -> list effect * option raised
}.

(** The names the module binds at its top level, lines 1-16. *)
Definition module_globals : list string :=
  [ "sys"; "logging"; "faulthandler"; "signal"; "SIGINT"; "ArgumentParser";
    "QApplication"; "QUrl"; "QTimer"; "cmdutils"; "config"; "MainWindow";
    "KeyParser"; "AppDirs"; "QuteBrowser" ].

(** The value of the name [self] in a body: a local variable, else a global
    of the module, else [NameError] (no builtin has that name). *)
Definition load_self (locals : gmap string value) : raised + value :=
  match locals !! "self" with
  | Some v => inr v
  | None =>
      if bool_decide ("self" ∈ module_globals) then inr Other
      else inl (NameError "self")
  end.

(** [self.exit(1)] *)
Definition self_exit (locals : gmap string value) : list effect * option raised :=
  match load_self locals with
  | inl e => ([], Some e)
  | inr (App _) => ([Exit 1], None)
  | inr Other => ([], Some AttributeError)
  end.

(** Lines 74-82: the loop over the tabs.  An exception in the evaluation of
    [range(self.mainwindow.tabs.count())] is caught by the outer [except
    Exception], an exception for one tab by the inner one. *)
Definition print_tabs (locals : gmap string value) : list effect :=
  match load_self locals with
  | inr (App tabs) =>
      flat_map (fun t => match t with Some url => [Print url] | None => [] end) tabs
  | _ => []
  end.

(** [tmp_exception_hook], lines 66-69. *)
Definition tmp_exception_hook : function :=
  mkFunction ["exctype"; "value"; "traceback"]
    (fun locals =>
       let '(effs, r) := self_exit locals in
       (PrintTraceback :: effs, r)).

(** [exception_hook], lines 71-83. *)
Definition exception_hook : function :=
  mkFunction ["exctype"; "value"; "traceback"]
    (fun locals =>
       let '(effs, r) := self_exit locals in
       (PrintTraceback :: print_tabs locals ++ effs, r)).

(** A call with positional arguments only: each parameter takes the argument
    at its position; another number of arguments is a [TypeError], raised
    before the body runs. *)
Definition call_function (f : function) (args : list value)
    : list effect * option raised :=
  if decide (length args = length (params f))
  then body f (list_to_map (zip (params f) args))
  else ([], Some TypeError).

(** A call of [self.f]: the method is bound, so the instance comes before
    the arguments of the call. *)
Definition call_bound (f : function) (self : value) (args : list value)
    : list effect * option raised :=
  call_function f (self :: args).

(** The two assignments to [sys.excepthook]: line 29, at the start of
    [__init__], and line 88, in [python_hacks] at its end. *)
Inductive phase : Type := Initializing | Running.

Definition excepthook (ph : phase) : function :=
  match ph with
  | Initializing => tmp_exception_hook
  | Running => exception_hook
  end.

(** The interpreter reports an uncaught exception by calling
    [sys.excepthook(type, value, traceback)]. *)
Definition report_uncaught (ph : phase) (self : value)
    : list effect * option raised :=
  call_bound (excepthook ph) self [Other; Other; Other].

Definition is_exit (eff : effect) : bool :=
  match eff with Exit _ => true | _ => false end.

End Hooks.

(** ** The [pyeval] command: the dispatcher's call of [self.pyeval] *)

Module PyevalCommand.

(** The call of a method by the dispatcher: it raises [TypeError] when the
    arguments do not fit the parameters, before the body runs; else the
    body runs. *)
Inductive call_outcome (A : Type) : Type :=
  | ArgumentError
  | Ran (r : A).
Arguments ArgumentError {A}.
Arguments Ran {A} r.

(** [pyeval] is declared as [def pyeval(self, s)]: one positional argument
    and no [count] keyword. *)
Definition call_pyeval (value : Type) (eval : string -> PyEval.result value)
    (repr : value -> PyEval.result string)
    (str : PyEval.exception -> PyEval.result string)
    (encode : string -> PyEval.result string) (currentWidget : option unit)
    (c : call)
    : call_outcome (list PyEval.tab_effect * PyEval.result unit) :=
  match kw_count c, pos_args c with
  | None, [s] => Ran (PyEval.pyeval value eval repr str encode currentWidget s)
  | _, _ => ArgumentError
  end.

End PyevalCommand.

(** ** Start-up: [__init__], [python_hacks], [initlog], [init_cmds] *)

Module Startup.

Local Open Scope list_scope.

(** [self.args], the result of [parser.parse_args()] in [parseopts]:
    [--log], whose default is "info", and [--confdir], absent by default. *)
Record options : Type := mkOptions {
  loglevel : string;
  confdir  : option string
}.

(** Upper-casing of a string of ASCII characters: there [str.upper] maps
    the letters a-z to A-Z and keeps every other character. *)
Definition upper_char (c : ascii) : ascii :=
  let n := nat_of_ascii c in
  if Nat.leb 97 n && Nat.leb n 122 then ascii_of_nat (n - 32) else c.

Fixpoint upper (s : string) : string :=
  match s with
  | EmptyString => EmptyString
  | String c s' => String (upper_char c) (upper s')
  end.

Fixpoint ascii_only (s : string) : bool :=
  match s with
  | EmptyString => true
  | String c s' => Nat.ltb (nat_of_ascii c) 128 && ascii_only s'
  end.

(** An attribute of the [logging] module, as [isinstance(_, int)] sees it. *)
Inductive attribute : Type :=
  | IntAttr (n : Z)
  | OtherAttr.

Definition ValueError (msg : string) : PyEval.exception :=
  PyEval.mkException "ValueError" msg true.

(** The main window, once it exists. *)
Inductive window : Type := TheMainWindow.

(** What start-up does, in the order it does it. *)
Inductive effect : Type :=
  | QApplicationInit
  | SetExcepthook (ph : Hooks.phase)
  | FaulthandlerEnable
  | ParseArgs
  | BasicConfig (level : Z)
  | NewAppDirs (name : string)
  | ConfigInit (dir : option string)
  | NewCommandParser
  | NewKeyParser (mainwindow : option window)
  | RegisterAll
  | ConnectCmd (cmd : nat)
  | FromConfigSect (sect : list (string * string))
  | NewMainWindow
  | Connect (signal slot : string)
  | Show
  | SetSigintHandler (exit_status : Z)
  | TimerStart (msec : Z).

(** Lines 38-43: the directory handed to [config.init]. *)
Definition select_confdir (args : options) (user_config_dir : string)
    : option string :=
  match confdir args with
  | None => Some user_config_dir
  | Some d => if decide (d = "") then None else Some d
  end.

Section Environment.

(** [str.upper] on a string that has a character outside ASCII, where the
    case mapping of Unicode applies (it maps the dotless i, U+0131, to "I"):
    that mapping is taken as given. *)
Variable upper_non_ascii : string -> string.

(** [str.upper]: computed on ASCII strings, given on the others. *)
Definition str_upper (s : string) : string :=
  if ascii_only s then upper s else upper_non_ascii s.

(** [getattr(logging, name, None)]; [None] when there is no such attribute. *)
Variable logging_getattr : string -> option attribute.

(** [isinstance(e, KeyError)] *)
Variable is_KeyError : PyEval.exception -> bool.

(** [self.keyparser.from_config_sect], of the absent key parser. *)
Variable from_config_sect : list (string * string) -> PyEval.result unit.

(** [signal.SIGINT] *)
Variable SIGINT : Z.

(** [initlog], lines 108-118: the level given to [logging.basicConfig]. *)
Definition initlog (args : options) : PyEval.result Z :=
  match logging_getattr (str_upper (loglevel args)) with
  | Some (IntAttr numeric_level) => PyEval.Returned numeric_level
  | _ => PyEval.Raised (ValueError ("Invalid log level: " ++ loglevel args)%string)
  end.

(** [init_cmds], lines 120-128.  [cmd_dict] holds the items of
    [cmdutils.cmd_dict] after [register_all], each command object given by
    its identity; [config] is [config.config]. *)
Definition init_cmds (cmd_dict : list (string * nat))
    (config : gmap string (list (string * string)))
    : list effect * PyEval.result unit :=
  let connects := RegisterAll :: map (fun kv => ConnectCmd kv.2) cmd_dict in
  match config !! "keybind" with
  | None => (connects, PyEval.Returned tt)      (* KeyError, caught *)
  | Some sect =>
      (connects ++ [FromConfigSect sect],
       match from_config_sect sect with
       | PyEval.Returned _ => PyEval.Returned tt
       | PyEval.Raised e =>
           if is_KeyError e then PyEval.Returned tt else PyEval.Raised e
       end)
  end.

(** Lines 51-61: the connections made once the main window exists. *)
Definition init_connections : list effect :=
  [ Connect "aboutToQuit" "config.config.save";
    Connect "mainwindow.tabs.keypress" "keyparser.handle";
    Connect "keyparser.set_cmd_text" "mainwindow.status.cmd.set_cmd";
    Connect "mainwindow.status.cmd.got_cmd" "commandparser.run";
    Connect "mainwindow.status.cmd.got_cmd" "mainwindow.tabs.setFocus";
    Connect "commandparser.error" "mainwindow.status.disp_error";
    Connect "keyparser.commandparser.error" "mainwindow.status.disp_error";
    Connect "keyparser.keystring_updated" "mainwindow.status.txt.set_keystring" ].

(** [python_hacks], lines 85-97. *)
Definition python_hacks : list effect :=
  [ SetExcepthook Hooks.Running;
    SetSigintHandler (128 + SIGINT);
    TimerStart 500;
    Connect "timer.timeout" "lambda: None" ].

(** [__init__], lines 26-64.  [args] is what [parseopts] stores and
    [user_config_dir] what [AppDirs] gives.  The attribute [mainwindow] is
    [None], the value of the class attribute (line 20), until line 49
    assigns it. *)
Definition init (args : options) (user_config_dir : string)
    (cmd_dict : list (string * nat))
    (config : gmap string (list (string * string)))
    : list effect * PyEval.result unit :=
  let mainwindow : option window := None in
  let before_log :=
    [QApplicationInit; SetExcepthook Hooks.Initializing; FaulthandlerEnable;
     ParseArgs] in
  match initlog args with
  | PyEval.Raised e => (before_log, PyEval.Raised e)
  | PyEval.Returned level =>
      let before_cmds :=
        before_log ++
        [ BasicConfig level;
          NewAppDirs "qutebrowser";
          ConfigInit (select_confdir args user_config_dir);
          NewCommandParser;
          NewKeyParser mainwindow ] in
      let '(cmds, r) := init_cmds cmd_dict config in
      match r with
      | PyEval.Raised e => (before_cmds ++ cmds, PyEval.Raised e)
      | PyEval.Returned _ =>
          let mainwindow := Some TheMainWindow in
          (before_cmds ++ cmds ++ [NewMainWindow] ++ init_connections
             ++ [Show] ++ python_hacks,
           PyEval.Returned tt)
      end
  end.

End Environment.

(** Position of the first effect of a kind in a trace. *)
Fixpoint first_index (p : effect -> bool) (tr : list effect) : option nat :=
  match tr with
  | [] => None
  | eff :: tr' => if p eff then Some 0 else S <$> first_index p tr'
  end.

Definition is_NewKeyParser (eff : effect) : bool :=
  match eff with NewKeyParser _ => true | _ => false end.

Definition is_NewMainWindow (eff : effect) : bool :=
  match eff with NewMainWindow => true | _ => false end.

(** A key parser built with a main window. *)
Definition keyparser_with_window (eff : effect) : bool :=
  match eff with NewKeyParser (Some _) => true | _ => false end.

(** The commands whose signal an effect trace connects to [cmd_handler]. *)
Definition connections (effs : list effect) : list nat :=
  flat_map (fun eff => match eff with ConnectCmd c => [c] | _ => [] end) effs.

(** What the slot [cmd_handler] shows when it runs for an emission. *)
Definition slot_events (sender : Command) (tpl : option Z * list string)
    : list event :=
  match cmd_handler sender tpl with
  | inr c => [HandlerCalled c]
  | inl e => [ExceptHook e]
  end.

(** One emission of the signal of the command object [sender] when [conns]
    are the connections made: Qt runs the slot once for each connection of
    that signal, a connection made twice counting twice.  [attr] gives the
    attributes of a command object. *)
Definition emit_connected (conns : list nat) (attr : nat -> Command)
    (sender : nat) (tpl : option Z * list string) : list event :=
  SignalEmitted (attr sender) tpl ::
  flat_map (fun c => if decide (c = sender)
                     then slot_events (attr sender) tpl else []) conns.

End Startup.

(** * Properties *)

(** ** Sanity checks of the models on the examples of the specification *)

Example cmd_handler_scroll :
  cmd_handler (mkCommand true) (Some 5%Z, ["scroll"; "0"; "10"])
  = inr (mkCall tabs_cur_scroll ["0"; "10"] (Some (Some 5%Z))).
Proof. vm_compute. reflexivity. Qed.

Example parse_count_name_args :
  parse_line "5 scroll  0 10 "
  = inr (mkInvocation (Some 5%N) "scroll" ["0"; "10"]).
Proof. vm_compute. reflexivity. Qed.

Example parse_empty : parse_line "  " = inl EmptyCommandError.
Proof. reflexivity. Qed.

Example parse_42 : parse_line "42" = inl MalformedCountError.
Proof. reflexivity. Qed.

Example matcher_g : forall fb,
  feed gg_table fb Idle (Key "g") = (mkState "" ["g"], Silent).
Proof. intros []; reflexivity. Qed.

Example matcher_gg : forall fb,
  feed_all gg_table fb Idle [Key "g"; Key "g"]
  = (Idle, [Silent; Resolved None "scroll top"]).
Proof. intros []; reflexivity. Qed.

Example matcher_gx : forall fb,
  feed_all gg_table fb Idle [Key "g"; Key "x"] = (Idle, [Silent; NoMatch]).
Proof. intros []; reflexivity. Qed.

Example matcher_3d : forall fb,
  feed_all [(["d"], "delete")] fb Idle [Key "3"; Key "d"]
  = (Idle, [Silent; Resolved (Some 3%N) "delete"]).
Proof. intros []; reflexivity. Qed.

Example matcher_fallback :
  feed_all [(["g"], "top"); (["g"; "g"], "bottom")] true Idle [Key "g"; Key "x"]
  = (Idle, [Silent; Resolved None "top"]).
Proof. reflexivity. Qed.

(** ** The handler table *)

Lemma foldl_insert_lookup {V : Type} (items : list (string * V))
    (d : gmap string V) (k : string) :
  foldl (fun d kv => <[kv.1 := kv.2]> d) d items !! k
  = last_binding k (d !! k) items.
Proof.
  revert d. induction items as [|[k' v] items IH]; intros d; simpl.
  - reflexivity.
  - rewrite IH, lookup_insert. reflexivity.
Qed.

(** Looking a key up in a dictionary literal gives its last item. *)
Lemma dict_literal_lookup {V : Type} (items : list (string * V)) (k : string) :
  dict_literal items !! k = last_binding k None items.
Proof. unfold dict_literal. rewrite foldl_insert_lookup, lookup_empty. reflexivity. Qed.

Lemma handlers_lookup_Some (k : string) (h : handler) :
  handlers !! k = Some h <-> In (k, h) handler_table.
Proof.
  unfold handlers. rewrite dict_literal_lookup. simpl.
  split.
  - intros H. repeat case_decide; subst; simplify_eq; simpl; tauto.
  - intros H. repeat (destruct H as [H|H]; [inversion H; subst; reflexivity|]).
    destruct H.
Qed.

Lemma handlers_lookup_None (k : string) :
  handlers !! k = None <-> ~ In k (map fst handler_table).
Proof.
  split.
  - intros Hk Hin. apply in_map_iff in Hin as [[k' h] [Hfst Hin]].
    simpl in Hfst. subst k'. apply handlers_lookup_Some in Hin. congruence.
  - intros Hk. destruct (handlers !! k) as [h|] eqn:E; [|reflexivity].
    apply handlers_lookup_Some in E. exfalso. apply Hk.
    apply in_map_iff. exists (k, h). split; [reflexivity | exact E].
Qed.

(** ** The dispatcher *)


(** What a call made by [cmd_handler] looks like. *)
Lemma cmd_handler_call (sender : Command) (tpl : option Z * list string)
    (c : call) :
  cmd_handler sender tpl = inr c ->
  exists name,
    tpl.2 = name :: pos_args c
    /\ handlers !! name = Some (callee c)
    /\ kw_count c = (if count sender then Some tpl.1 else None).
Proof.
  destruct tpl as [cnt [|name args]]; unfold cmd_handler; cbn [snd fst];
    intros H; [discriminate|].
  exists name. destruct (handlers !! name) as [h|]; [|discriminate].
  destruct (count sender); inversion H; subst; cbn [pos_args callee kw_count]; auto.
Qed.

(** C1, counterexample.  The command [quit] emitted by a command object that
    does not support a count, with the count 5 (the line "5 quit"): the
    handler does not fail with [CountNotSupportedError]; it calls the action
    [self.quit] with no argument, the count being dropped. *)
Lemma C1_counterexample :
  cmd_handler (mkCommand false) (Some 5%Z, ["quit"]) = inr (mkCall app_quit [] None)
  /\ dispatch_line (mkCommand false) "5 quit" = inr (mkCall app_quit [] None)
  /\ cmd_handler (mkCommand false) (Some 5%Z, ["quit"]) <> inl CountNotSupportedError.
Proof. vm_compute. repeat split; discriminate. Qed.

(** C1, amended.  For every command whose [count] flag is false and whose
    name is in the handler table, an invocation that carries a count does
    not fail with [CountNotSupportedError]: the dispatcher drops the count
    and makes the call of the command's action, with the positional
    arguments and no [count] parameter.  Whether the action accepts these
    arguments is the action's matter. *)
Theorem C1_count_dropped (sender : Command) (cnt : option Z) (name : string)
    (args : list string) (h : handler) :
  count sender = false ->
  handlers !! name = Some h ->
  cmd_handler sender (cnt, name :: args) = inr (mkCall h args None)
  /\ cmd_handler sender (cnt, name :: args) <> inl CountNotSupportedError.
Proof.
  intros Hc Hh. unfold cmd_handler. rewrite Hh, Hc.
  split; [reflexivity | discriminate].
Qed.

Lemma C1_count_dropped_witness :
  cmd_handler (mkCommand false) (Some 5%Z, ["tabclose"])
  = inr (mkCall tabs_cur_close [] None)
  /\ cmd_handler (mkCommand false) (Some 5%Z, ["tabclose"])
     <> inl CountNotSupportedError.
Proof.
  apply (C1_count_dropped (mkCommand false) (Some 5%Z) "tabclose" [] tabs_cur_close).
  - reflexivity.
  - vm_compute. reflexivity.
Defined.

(** C2, counterexample.  A command that supports a count, invoked without
    one: the action is called with the named parameter [count], whose value
    is Python's [None]; so the parameter is passed although no count was
    supplied. *)
Lemma C2_counterexample :
  cmd_handler (mkCommand true) (None, ["scroll"; "0"; "10"])
  = inr (mkCall tabs_cur_scroll ["0"; "10"] (Some None))
  /\ ~ (forall sender tpl c,
          cmd_handler sender tpl = inr c ->
          (is_Some (kw_count c) <-> count sender = true /\ is_Some tpl.1)).
Proof.
  split; [vm_compute; reflexivity|].
  intros H.
  specialize (H (mkCommand true) (None, ["scroll"; "0"; "10"])
                (mkCall tabs_cur_scroll ["0"; "10"] (Some None))).
  destruct H as [H _]; [vm_compute; reflexivity|].
  destruct H as [_ [z Hz]]; [eexists; reflexivity|].
  simpl in Hz. discriminate.
Qed.

(** C2, amended.  The dispatcher passes [count] as a named parameter exactly
    when the [count] flag of the command is true, and then with the count of
    the invocation as its value, which is [None] when none was supplied; when
    the flag is false the action is called with no [count] parameter. *)
Theorem C2_count_keyword (sender : Command) (tpl : option Z * list string)
    (c : call) :
  cmd_handler sender tpl = inr c ->
  kw_count c = (if count sender then Some tpl.1 else None).
Proof. intros H. apply cmd_handler_call in H as (name & _ & _ & Hk). exact Hk. Qed.

Lemma C2_count_keyword_witness :
  kw_count (mkCall tabs_cur_scroll ["0"; "10"] (Some None)) = Some None.
Proof.
  apply (C2_count_keyword (mkCommand true) (None, ["scroll"; "0"; "10"])).
  vm_compute. reflexivity.
Defined.

(** C3, counterexample.  A name that is not in the handler table: the lookup
    [handlers[cmd]] raises Python's [KeyError], which is not
    [UnknownCommandError]. *)
Lemma C3_counterexample :
  cmd_handler (mkCommand false) (None, ["nosuch"]) = inl (KeyError "nosuch")
  /\ cmd_handler (mkCommand false) (None, ["nosuch"]) <> inl UnknownCommandError.
Proof. vm_compute. split; [reflexivity | discriminate]. Qed.

(** C3, amended.  For every invocation whose command name is not a key of
    the handler table, the dispatcher fails with the [KeyError] of the table
    lookup, carrying that name, and calls no action. *)
Theorem C3_unknown_name_KeyError (sender : Command) (cnt : option Z)
    (name : string) (args : list string) :
  handlers !! name = None ->
  cmd_handler sender (cnt, name :: args) = inl (KeyError name)
  /\ invoked sender (cnt, name :: args) = None.
Proof. intros Hh. unfold invoked, cmd_handler. rewrite Hh. split; reflexivity. Qed.

Lemma C3_unknown_name_KeyError_witness :
  cmd_handler (mkCommand true) (Some 2%Z, ["scroll_perc_x"; "50"])
  = inl (KeyError "scroll_perc_x")
  /\ invoked (mkCommand true) (Some 2%Z, ["scroll_perc_x"; "50"]) = None.
Proof.
  apply (C3_unknown_name_KeyError (mkCommand true) (Some 2%Z) "scroll_perc_x" ["50"]).
  vm_compute. reflexivity.
Defined.

(** C9.  The literal of the handler table has two items with the key
    [scroll_perc_y], for [cur_scroll_percent_x] and then for
    [cur_scroll_percent_y]; the later one wins: every invocation of
    [scroll_perc_y] calls [cur_scroll_percent_y], and no invocation at all
    calls [cur_scroll_percent_x]. *)
Theorem C9_scroll_perc_y_later_binding_wins :
  map snd (filter (fun kv => kv.1 = "scroll_perc_y") handler_items)
  = [tabs_cur_scroll_percent_x; tabs_cur_scroll_percent_y]
  /\ (forall sender cnt args,
        invoked sender (cnt, "scroll_perc_y" :: args)
        = Some tabs_cur_scroll_percent_y)
  /\ (forall sender tpl, invoked sender tpl <> Some tabs_cur_scroll_percent_x).
Proof.
  split; [vm_compute; reflexivity|]. split.
  - intros sender cnt args. unfold invoked, cmd_handler.
    replace (handlers !! "scroll_perc_y") with (Some tabs_cur_scroll_percent_y)
      by (vm_compute; reflexivity).
    destruct (count sender); reflexivity.
  - intros sender tpl. unfold invoked.
    destruct (cmd_handler sender tpl) as [e|c] eqn:E; [discriminate|].
    apply cmd_handler_call in E as (name & _ & Hh & _).
    apply handlers_lookup_Some in Hh. intros Hx. inversion Hx as [Hc].
    rewrite Hc in Hh. simpl in Hh.
    repeat (destruct Hh as [Hh|Hh]; [discriminate|]). destruct Hh.
Qed.

(** ** Signals and the dispatcher *)


(** The two errors of the command-line parser. *)
Lemma parse_line_errors (line : string) (e : error) :
  parse_line line = inl e -> e = EmptyCommandError \/ e = MalformedCountError.
Proof.
  unfold parse_line. destruct (tokens_from "" line) as [|t rest].
  - intros H. inversion H. auto.
  - destruct (all_digits t); [|discriminate].
    destruct rest; [|discriminate]. intros H. inversion H. auto.
Qed.



Example run_line_count_alone :
  Pipeline.line_error (mkCommand false) "42" = Some MalformedCountError
  /\ Pipeline.run_line (mkCommand false) "42" = [ErrorDisplayed MalformedCountError].
Proof. split; reflexivity. Qed.

Example handle_key_dead_end :
  Pipeline.key_error gg_table false (mkState "" ["g"]) (Key "x") = Some NoMatchError
  /\ Pipeline.handle_key gg_table false (mkState "" ["g"]) (Key "x")
     = (Idle, [ErrorDisplayed NoMatchError]).
Proof. split; reflexivity. Qed.

(** C6, counterexample.  The command [scroll] with the count 5: the signal is
    the first event and the call of the action the second, so the
    notification does not fire after the call; and its payload is the pair
    [(count, argv)], the name being the head of [argv]. *)
Lemma C6_counterexample :
  let tr := emit (mkCommand true) (Some 5%Z, ["scroll"; "0"; "10"]) in
  tr = [SignalEmitted (mkCommand true) (Some 5%Z, ["scroll"; "0"; "10"]);
        HandlerCalled (mkCall tabs_cur_scroll ["0"; "10"] (Some (Some 5%Z)))]
  /\ position is_signal tr = Some 0
  /\ position is_call tr = Some 1
  /\ ~ (exists i j, position is_call tr = Some i
                    /\ position is_signal tr = Some j /\ i < j).
Proof.
  vm_compute. repeat split.
  intros (i & j & Hi & Hj & Hlt). inversion Hi; inversion Hj; subst. lia.
Qed.

(** C6, amended.  For every invocation that reaches an action, the
    notification is the signal of the command, carrying the pair
    [(count, argv)] with the name as the head of [argv] and the arguments
    after it; it fires first, and the action is called by its subscriber
    [cmd_handler], with those arguments, as the last event. *)
Theorem C6_signal_then_call (sender : Command) (tpl : option Z * list string)
    (c : call) :
  cmd_handler sender tpl = inr c ->
  emit sender tpl = [SignalEmitted sender tpl; HandlerCalled c]
  /\ exists name, tpl = (tpl.1, name :: pos_args c)
                  /\ handlers !! name = Some (callee c).
Proof.
  intros H. unfold emit. rewrite H. split; [reflexivity|].
  apply cmd_handler_call in H as (name & Ha & Hh & _).
  exists name. split; [|exact Hh].
  destruct tpl as [cnt argv]. simpl in *. rewrite Ha. reflexivity.
Qed.

Lemma C6_signal_then_call_witness :
  emit (mkCommand false) (None, ["open"; "example.org"])
  = [SignalEmitted (mkCommand false) (None, ["open"; "example.org"]);
     HandlerCalled (mkCall tabs_openurl ["example.org"] None)]
  /\ exists name,
       (@None Z, ["open"; "example.org"])
       = ((@None Z, ["open"; "example.org"]).1,
          name :: pos_args (mkCall tabs_openurl ["example.org"] None))
       /\ handlers !! name = Some (callee (mkCall tabs_openurl ["example.org"] None)).
Proof.
  apply (C6_signal_then_call (mkCommand false) (None, ["open"; "example.org"])
           (mkCall tabs_openurl ["example.org"] None)).
  vm_compute. reflexivity.
Defined.

(** ** The command-line parser *)

Lemma is_digit_not_space (c : ascii) : is_digit c = true -> is_space c = false.
Proof. destruct c as [[] [] [] [] [] [] [] []]; simpl; congruence. Qed.

Lemma all_digits_no_space (s : string) : all_digits s = true -> no_space s = true.
Proof.
  induction s as [|c s IH]; simpl; [reflexivity|].
  intros [Hc Hs]%andb_prop. rewrite (is_digit_not_space c Hc). simpl. auto.
Qed.

Lemma append_cons (a : ascii) (s t : string) :
  String a s ++ t = String a (s ++ t).
Proof. reflexivity. Qed.

Lemma append_snoc (cur t : string) (c : ascii) :
  (cur ++ String c "") ++ t = cur ++ String c t.
Proof.
  induction cur as [|a cur IH]; [reflexivity|].
  rewrite !append_cons, IH. reflexivity.
Qed.

Lemma append_empty_r (s : string) : s ++ "" = s.
Proof.
  induction s as [|a s IH]; [reflexivity|].
  rewrite append_cons, IH. reflexivity.
Qed.

(** A run of characters that are not whitespace extends the current token. *)
Lemma tokens_from_token (t cur s : string) :
  no_space t = true -> tokens_from cur (t ++ s) = tokens_from (cur ++ t) s.
Proof.
  revert cur. induction t as [|c t IH]; intros cur.
  - intros _. rewrite append_empty_r. reflexivity.
  - simpl. intros [Hc Ht]%andb_prop. apply negb_true_iff in Hc.
    rewrite Hc.
    rewrite IH by exact Ht. rewrite append_snoc. reflexivity.
Qed.

(** Whitespace before the first token is skipped. *)
Lemma tokens_from_leading (ws s : string) :
  all_space ws = true -> tokens_from "" (ws ++ s) = tokens_from "" s.
Proof.
  induction ws as [|c ws IH]; [reflexivity|].
  simpl. intros [Hc Hws]%andb_prop.
  rewrite Hc. simpl. exact (IH Hws).
Qed.

(** Whitespace after the last token ends it. *)
Lemma tokens_from_trailing (ws cur : string) :
  all_space ws = true -> tokens_from cur ws = flush cur.
Proof.
  intros Hws. destruct ws as [|c ws]; simpl; [reflexivity|].
  simpl in Hws. apply andb_prop in Hws as [Hc Hws]. rewrite Hc.
  rewrite <- (append_empty_r ws), tokens_from_leading by exact Hws.
  simpl. apply app_nil_r.
Qed.

Lemma flush_nonempty (t : string) : t <> "" -> flush t = [t].
Proof. destruct t; [congruence | reflexivity]. Qed.

(** The line made of a count, a name and one argument. *)
Lemma parse_line_count_name_arg (name : string) :
  no_space name = true -> name <> "" ->
  parse_line ("5 " ++ name ++ " arg1")
  = inr (mkInvocation (Some 5%N) name ["arg1"]).
Proof.
  intros Hns Hne. unfold parse_line.
  change (tokens_from "" ("5 " ++ name ++ " arg1"))
    with ("5" :: tokens_from "" (name ++ " arg1")).
  rewrite tokens_from_token by exact Hns.
  change (tokens_from ("" ++ name) " arg1") with (flush name ++ ["arg1"])%list.
  rewrite flush_nonempty by exact Hne. reflexivity.
Qed.

Lemma handler_names_are_tokens :
  Forall (fun name => no_space name = true /\ name <> "") (map fst handler_table).
Proof. repeat constructor; discriminate. Qed.

(** C5.  For every command name of the handler table whose command supports
    a count, the line "5 name arg1" invokes the action of that name with
    [count = 5] and the single positional argument "arg1"; the name is not
    among the arguments. *)
Theorem C5_count_name_arg (sender : Command) (name : string) (h : handler) :
  count sender = true ->
  handlers !! name = Some h ->
  dispatch_line sender ("5 " ++ name ++ " arg1")
  = inr (mkCall h ["arg1"] (Some (Some 5%Z))).
Proof.
  intros Hc Hh.
  assert (Htok : no_space name = true /\ name <> "").
  { pose proof handler_names_are_tokens as Hall.
    rewrite List.Forall_forall in Hall. apply Hall.
    pose proof (proj1 (handlers_lookup_Some name h) Hh) as Hin.
    apply in_map_iff. exists (name, h). split; [reflexivity | exact Hin]. }
  destruct Htok as [Hns Hne].
  unfold dispatch_line. rewrite parse_line_count_name_arg by assumption.
  unfold invocation_tpl, cmd_handler. cbn [inv_count inv_name inv_args fmap option_fmap option_map].
  rewrite Hh, Hc. reflexivity.
Qed.

Lemma C5_count_name_arg_witness :
  dispatch_line (mkCommand true) "5 tabopen arg1"
  = inr (mkCall tabs_tabopen ["arg1"] (Some (Some 5%Z))).
Proof.
  apply (C5_count_name_arg (mkCommand true) "tabopen" tabs_tabopen).
  - reflexivity.
  - vm_compute. reflexivity.
Defined.

(** C7.  A line that holds a run of decimal digits and nothing else but
    whitespace around it, such as "42", fails to parse with
    [MalformedCountError]. *)
Theorem C7_count_without_command (lead ds trail : string) :
  all_space lead = true ->
  all_digits ds = true -> ds <> "" ->
  all_space trail = true ->
  parse_line (lead ++ ds ++ trail) = inl MalformedCountError.
Proof.
  intros Hl Hd Hne Ht. unfold parse_line.
  rewrite tokens_from_leading by exact Hl.
  rewrite tokens_from_token by (apply all_digits_no_space; exact Hd).
  rewrite tokens_from_trailing by exact Ht.
  change ("" ++ ds) with ds. rewrite flush_nonempty by exact Hne.
  rewrite Hd. reflexivity.
Qed.

Lemma C7_count_without_command_witness :
  parse_line ("" ++ "42" ++ "") = inl MalformedCountError.
Proof.
  apply (C7_count_without_command "" "42" "");
    [reflexivity | reflexivity | discriminate | reflexivity].
Defined.

(** ** The key-sequence matcher *)

(** An event that emits nothing either cancels or keeps accumulating; an
    event that emits leaves the idle state behind it. *)
Lemma feed_cases (table : list (list string * string)) (fb : bool)
    (st : MatcherState) (e : key_event) :
  (snd (feed table fb st e) = Silent)
  \/ (fst (feed table fb st e) = Idle).
Proof.
  destruct e as [tok|]; unfold feed; [|right; reflexivity].
  cbv zeta.
  destruct (exact table (pending_keys (append st tok))),
           (has_longer table (pending_keys (append st tok)));
    simpl; auto.
Qed.

(** The same over a whole run of events, from any state: when the last
    event of the run emits, the run ends in the idle state. *)
Lemma feed_all_last (table : list (list string * string)) (fb : bool)
    (es : list key_event) (st : MatcherState) :
  List.last (snd (feed_all table fb st es)) Silent <> Silent ->
  fst (feed_all table fb st es) = Idle.
Proof.
  revert st. induction es as [|e es IH]; intros st; [simpl; congruence|].
  cbn [feed_all].
  destruct (feed table fb st e) as [st1 out] eqn:E1.
  destruct (feed_all table fb st1 es) as [st2 outs] eqn:E2.
  destruct es as [|e' es'].
  - simpl in E2. inversion E2; subst. simpl. intros Hout.
    destruct (feed_cases table fb st e) as [Hs|Hi]; rewrite E1 in *; simpl in *;
      [contradiction | exact Hi].
  - specialize (IH st1). rewrite E2 in IH. simpl in IH. simpl.
    destruct outs as [|o outs'].
    + cbn [feed_all] in E2.
      destruct (feed table fb st1 e') as [sa oa].
      destruct (feed_all table fb sa es') as [sb ob]. discriminate.
    + exact IH.
Qed.

(** C8.  After an event on which the matcher resolves a binding, and after
    an event on which it emits [NoMatchError], its state is the initial idle
    state: no pending digit and no pending key. *)
Theorem C8_matcher_idle_after_emission (table : list (list string * string))
    (fb : bool) (st st' : MatcherState) (e : key_event) (out : emission) :
  feed table fb st e = (st', out) ->
  (exists cnt cmdline, out = Resolved cnt cmdline) \/ out = NoMatch ->
  st' = Idle /\ pending_digits st' = "" /\ pending_keys st' = [].
Proof.
  intros Hfeed Hout.
  assert (Hidle : st' = Idle).
  { destruct (feed_cases table fb st e) as [Hs|Hi];
      rewrite Hfeed in *; simpl in *; [|exact Hi].
    subst out. destruct Hout as [(cnt & cmdline & H)|H]; discriminate. }
  subst st'. repeat split.
Qed.

Lemma C8_matcher_idle_after_emission_witness :
  Idle = Idle /\ pending_digits Idle = "" /\ pending_keys Idle = [].
Proof.
  apply (C8_matcher_idle_after_emission gg_table false
           (mkState "12" ["g"]) Idle (Key "x") NoMatch).
  - reflexivity.
  - right. reflexivity.
Defined.

(** ** [pyeval] *)

(** The displays of the method: the [repr] of a value, and the class name
    and message of a caught exception; and three ways it raises. *)
Example pyeval_value :
  PyEval.pyeval Z (fun _ => PyEval.Returned 2%Z) (fun _ => PyEval.Returned "2")
    PyEval.str_message PyEval.Returned (Some tt) "1+1"
  = ([PyEval.setUrl "about:pyeval"; PyEval.setContent "2" "text/plain"],
     PyEval.Returned tt).
Proof. reflexivity. Qed.

Example pyeval_caught :
  PyEval.pyeval Z (fun _ => PyEval.Raised PyEval.ZeroDivisionError_)
    (fun _ => PyEval.Returned "") PyEval.str_message PyEval.Returned (Some tt) "1/0"
  = ([PyEval.setUrl "about:pyeval";
      PyEval.setContent "ZeroDivisionError: division by zero" "text/plain"],
     PyEval.Returned tt).
Proof. reflexivity. Qed.

Example pyeval_str_raises :
  PyEval.pyeval Z (fun _ => PyEval.Raised PyEval.BadStr)
    (fun _ => PyEval.Returned "") PyEval.str_BadStr PyEval.Returned (Some tt)
    "BadStr()"
  = ([], PyEval.Raised PyEval.ZeroDivisionError_).
Proof. reflexivity. Qed.

Example pyeval_no_tab :
  PyEval.pyeval Z (fun _ => PyEval.Returned 2%Z) (fun _ => PyEval.Returned "2")
    PyEval.str_message PyEval.Returned None "1+1"
  = ([], PyEval.Raised PyEval.AttributeError_None).
Proof. reflexivity. Qed.

Example pyeval_encode_raises :
  PyEval.pyeval Z (fun _ => PyEval.Returned 2%Z) (fun _ => PyEval.Returned "2")
    PyEval.str_message
    (fun _ => PyEval.Raised (PyEval.mkException "UnicodeEncodeError" "" true))
    (Some tt) "1+1"
  = ([PyEval.setUrl "about:pyeval"],
     PyEval.Raised (PyEval.mkException "UnicodeEncodeError" "" true)).
Proof. reflexivity. Qed.



(** ** More on the dispatcher *)

(** X1.  The dispatcher gets as far as the call of an action, past the
    lookups [argv[0]] and [handlers[cmd]], exactly when [argv] is not empty
    and its first element is one of the fifteen names the handler table
    keeps; the count, the arguments and the command object play no part in
    that.  (What the call then does is the action's matter.) *)
Theorem dispatch_succeeds_iff (sender : Command) (tpl : option Z * list string) :
  (exists c, cmd_handler sender tpl = inr c)
  <-> (exists name args, tpl.2 = name :: args /\ In name (map fst handler_table)).
Proof.
  split.
  - intros [c Hc]. apply cmd_handler_call in Hc as (name & Ha & Hh & _).
    exists name, (pos_args c). split; [exact Ha|].
    apply handlers_lookup_Some in Hh.
    apply in_map_iff. exists (name, callee c). split; [reflexivity | exact Hh].
  - intros (name & args & Ha & Hin).
    destruct tpl as [cnt argv]. cbn [snd] in Ha. subst argv.
    destruct (handlers !! name) as [h|] eqn:E.
    + unfold cmd_handler. rewrite E. destruct (count sender); eexists; reflexivity.
    + apply handlers_lookup_None in E. contradiction.
Qed.

(** X2.  Command names and actions are in one-to-one correspondence: two
    invocations that reach the same action have the same command name, and
    every action of the table except [cur_scroll_percent_x] is reached by
    some name, whatever the command object, the count and the arguments. *)
Theorem names_and_actions_one_to_one :
  (forall sender sender' tpl tpl' h,
      invoked sender tpl = Some h -> invoked sender' tpl' = Some h ->
      head tpl.2 = head tpl'.2)
  /\ (forall h, h <> tabs_cur_scroll_percent_x ->
        exists name, forall sender cnt args,
          invoked sender (cnt, name :: args) = Some h).
Proof.
  split.
  - intros sender sender' tpl tpl' h H1 H2. unfold invoked in *.
    destruct (cmd_handler sender tpl) as [e|c] eqn:E1; [discriminate|].
    destruct (cmd_handler sender' tpl') as [e|c'] eqn:E2; [discriminate|].
    apply cmd_handler_call in E1 as (n1 & Ha1 & Hh1 & _).
    apply cmd_handler_call in E2 as (n2 & Ha2 & Hh2 & _).
    inversion H1 as [Hc1]. inversion H2 as [Hc2].
    rewrite Ha1, Ha2. simpl. f_equal.
    rewrite Hc1 in Hh1. rewrite Hc2 in Hh2.
    apply handlers_lookup_Some in Hh1. apply handlers_lookup_Some in Hh2.
    clear H1 H2 Hc1 Hc2 Ha1 Ha2. simpl in Hh1, Hh2.
    repeat (destruct Hh1 as [Hh1|Hh1]; [simplify_eq;
      repeat (destruct Hh2 as [Hh2|Hh2]; [simplify_eq; reflexivity|]);
      destruct Hh2|]).
    destruct Hh1.
  - intros h Hne.
    assert (Hin : exists name, In (name, h) handler_table).
    { destruct h; try congruence; eexists; simpl; eauto 20. }
    destruct Hin as [name Hin]. exists name. intros sender cnt args.
    apply handlers_lookup_Some in Hin. unfold invoked, cmd_handler.
    rewrite Hin. destruct (count sender); reflexivity.
Qed.

(** ** More on [pyeval] *)



(** X4.  The command [pyeval] evaluates something only when its command
    object has no count support and it has exactly one argument, which is
    then the string evaluated; in every other case the call of
    [self.pyeval] raises [TypeError] and nothing is evaluated or displayed. *)
Theorem pyeval_command (value : Type) (eval : string -> PyEval.result value)
    (repr : value -> PyEval.result string)
    (str : PyEval.exception -> PyEval.result string)
    (encode : string -> PyEval.result string) (currentWidget : option unit)
    (sender : Command) (cnt : option Z) (args : list string) :
  exists c,
    cmd_handler sender (cnt, "pyeval" :: args) = inr c
    /\ callee c = app_pyeval
    /\ PyevalCommand.call_pyeval value eval repr str encode currentWidget c
       = (if count sender then PyevalCommand.ArgumentError
          else match args with
               | [s] => PyevalCommand.Ran
                          (PyEval.pyeval value eval repr str encode currentWidget s)
               | _ => PyevalCommand.ArgumentError
               end).
Proof.
  unfold cmd_handler.
  replace (handlers !! "pyeval") with (Some app_pyeval) by (vm_compute; reflexivity).
  destruct (count sender); eexists; (split; [reflexivity|]); split;
    try reflexivity.
Qed.

(** ** The exception hooks *)

Example hook_two_arguments :
  Hooks.call_bound Hooks.exception_hook (Hooks.App [Some "a"]) [Hooks.Other; Hooks.Other]
  = ([Hooks.PrintTraceback], Some (Hooks.NameError "self")).
Proof. vm_compute. reflexivity. Qed.

(** X5.  Whichever hook is installed, the one of [__init__] or the one of
    [python_hacks], the interpreter's report of an uncaught exception, a call
    of the bound hook with type, value and traceback, raises [TypeError]
    before the body of the hook runs: nothing is printed and the
    application is not told to exit. *)
Theorem hook_report_raises_TypeError (ph : Hooks.phase) (self : Hooks.value) :
  Hooks.report_uncaught ph self = ([], Some Hooks.TypeError).
Proof. destruct ph; reflexivity. Qed.

(** X6.  Neither hook ever reaches [self.exit]: a bound call with any
    number of arguments either does not fit the parameters, or runs a body
    in which the name [self] is unbound. *)
Theorem hook_never_exits (ph : Hooks.phase) (self : Hooks.value)
    (args : list Hooks.value) :
  existsb Hooks.is_exit (Hooks.call_bound (Hooks.excepthook ph) self args).1
  = false.
Proof.
  destruct args as [|a [|b [|c args]]]; destruct ph; try reflexivity;
    vm_compute; reflexivity.
Qed.

(** ** Start-up *)

Lemma upper_char_idempotent (c : ascii) :
  Startup.upper_char (Startup.upper_char c) = Startup.upper_char c.
Proof. destruct c as [[] [] [] [] [] [] [] []]; reflexivity. Qed.

Lemma upper_idempotent (s : string) : Startup.upper (Startup.upper s) = Startup.upper s.
Proof.
  induction s as [|c s IH]; simpl; [reflexivity|].
  rewrite upper_char_idempotent, IH. reflexivity.
Qed.

Lemma upper_char_ascii (c : ascii) :
  Nat.ltb (nat_of_ascii c) 128 = true ->
  Nat.ltb (nat_of_ascii (Startup.upper_char c)) 128 = true.
Proof. destruct c as [[] [] [] [] [] [] [] []]; vm_compute; congruence. Qed.

Lemma upper_ascii_only (s : string) :
  Startup.ascii_only s = true -> Startup.ascii_only (Startup.upper s) = true.
Proof.
  induction s as [|c s IH]; simpl; [reflexivity|].
  intros [Hc Hs]%andb_prop. rewrite (upper_char_ascii c Hc). simpl. auto.
Qed.

(** X7.  The log level is looked up without regard to letter case: for a
    level name in ASCII, [initlog] accepts the name as given exactly when it
    accepts it in upper case, and with the same numeric level. *)
Theorem initlog_ignores_case (upper_non_ascii : string -> string)
    (logging_getattr : string -> option Startup.attribute)
    (lvl : string) (dir : option string) :
  Startup.ascii_only lvl = true ->
  match Startup.initlog upper_non_ascii logging_getattr
          (Startup.mkOptions lvl dir),
        Startup.initlog upper_non_ascii logging_getattr
          (Startup.mkOptions (Startup.upper lvl) dir)
  with
  | PyEval.Returned n, PyEval.Returned m => n = m
  | PyEval.Raised _, PyEval.Raised _ => True
  | _, _ => False
  end.
Proof.
  intros Hascii. unfold Startup.initlog, Startup.str_upper.
  cbn [Startup.loglevel].
  rewrite Hascii, (upper_ascii_only lvl Hascii), upper_idempotent.
  destruct (logging_getattr (Startup.upper lvl)) as [[n|]|]; auto.
Qed.

Lemma initlog_ignores_case_witness :
  match Startup.initlog (fun s => s)
          (fun name => if String.eqb name "DEBUG"
                       then Some (Startup.IntAttr 10) else None)
          (Startup.mkOptions "Debug" None),
        Startup.initlog (fun s => s)
          (fun name => if String.eqb name "DEBUG"
                       then Some (Startup.IntAttr 10) else None)
          (Startup.mkOptions (Startup.upper "Debug") None)
  with
  | PyEval.Returned n, PyEval.Returned m => n = m
  | PyEval.Raised _, PyEval.Raised _ => True
  | _, _ => False
  end.
Proof.
  apply (initlog_ignores_case (fun s => s)
           (fun name => if String.eqb name "DEBUG"
                        then Some (Startup.IntAttr 10) else None)
           "Debug" None).
  reflexivity.
Defined.

Lemma connections_app (a b : list Startup.effect) :
  Startup.connections (a ++ b)%list
  = (Startup.connections a ++ Startup.connections b)%list.
Proof. unfold Startup.connections. apply flat_map_app. Qed.

Lemma connections_connects (cmd_dict : list (string * nat)) :
  Startup.connections (map (fun kv => Startup.ConnectCmd kv.2) cmd_dict)
  = map snd cmd_dict.
Proof.
  induction cmd_dict as [|[k c] l IH]; simpl; [reflexivity|].
  f_equal. exact IH.
Qed.

Lemma init_cmds_connects_every_command_aux
    (is_KeyError : PyEval.exception -> bool)
    (from_config_sect : list (string * string) -> PyEval.result unit)
    (cmd_dict : list (string * nat))
    (config : gmap string (list (string * string))) :
  Startup.connections
    (Startup.init_cmds is_KeyError from_config_sect cmd_dict config).1
  = map snd cmd_dict.
Proof.
  unfold Startup.init_cmds.
  destruct (config !! "keybind") as [sect|]; cbn [fst].
  - rewrite connections_app. cbn [Startup.connections flat_map app].
    fold (Startup.connections (map (fun kv => Startup.ConnectCmd kv.2) cmd_dict)).
    rewrite connections_connects. apply app_nil_r.
  - cbn [Startup.connections flat_map app].
    fold (Startup.connections (map (fun kv => Startup.ConnectCmd kv.2) cmd_dict)).
    apply connections_connects.
Qed.

(** X8.  [init_cmds] connects the signal of every item of the command
    dictionary to the dispatcher, once for each item and in their order,
    whatever the configuration holds and even when reading the key
    bindings raises. *)
Theorem init_cmds_connects_every_command
    (is_KeyError : PyEval.exception -> bool)
    (from_config_sect : list (string * string) -> PyEval.result unit)
    (cmd_dict : list (string * nat))
    (config : gmap string (list (string * string))) :
  Startup.connections
    (Startup.init_cmds is_KeyError from_config_sect cmd_dict config).1
  = map snd cmd_dict.
Proof. apply init_cmds_connects_every_command_aux. Qed.

(** X9.  [init_cmds] fails in one way only: the section [keybind] exists
    and reading it raises an exception that is not a [KeyError], which is
    then propagated.  A missing section, and a [KeyError] raised while the
    section is read, are both ignored. *)
Theorem init_cmds_failure
    (is_KeyError : PyEval.exception -> bool)
    (from_config_sect : list (string * string) -> PyEval.result unit)
    (cmd_dict : list (string * nat))
    (config : gmap string (list (string * string))) (e : PyEval.exception) :
  (Startup.init_cmds is_KeyError from_config_sect cmd_dict config).2
  = PyEval.Raised e
  <-> (is_KeyError e = false
       /\ exists sect, config !! "keybind" = Some sect
                       /\ from_config_sect sect = PyEval.Raised e).
Proof.
  unfold Startup.init_cmds.
  destruct (config !! "keybind") as [sect|]; cbn [snd].
  - destruct (from_config_sect sect) as [u|e'] eqn:E.
    + split; [discriminate|]. intros (_ & s' & Hs & Hr).
      inversion Hs; subst. congruence.
    + destruct (is_KeyError e') eqn:Hk.
      * split; [discriminate|]. intros (Hk' & s' & Hs & Hr).
        inversion Hs; subst. rewrite E in Hr. inversion Hr; subst. congruence.
      * split.
        -- intros H. inversion H; subst. split; [exact Hk|].
           exists sect. split; [reflexivity | exact E].
        -- intros (_ & s' & Hs & Hr). inversion Hs; subst. congruence.
  - split; [discriminate|]. intros (_ & s' & Hs & _). discriminate.
Qed.

Lemma slot_runs_per_connection (conns : list nat) (id : nat) (evs : list event) :
  flat_map (fun c => if decide (c = id) then evs else []) conns
  = concat (replicate (length (filter (fun c => c = id) conns)) evs).
Proof.
  induction conns as [|c conns IH]; [reflexivity|].
  cbn [flat_map]. rewrite filter_cons.
  destruct (decide (c = id)); cbn [length replicate concat];
    rewrite IH; reflexivity.
Qed.

(** X10.  After [init_cmds], one emission of the signal of a command object
    runs the dispatcher once for every item of the command dictionary that
    holds that object: a command registered under several names has its
    action called that many times, one registered under a single name is
    dispatched once, and an object that is in no item is not dispatched. *)
Theorem emission_runs_handler_per_registration
    (is_KeyError : PyEval.exception -> bool)
    (from_config_sect : list (string * string) -> PyEval.result unit)
    (cmd_dict : list (string * nat))
    (config : gmap string (list (string * string)))
    (attr : nat -> Command) (id : nat) (tpl : option Z * list string) :
  let conns :=
    Startup.connections
      (Startup.init_cmds is_KeyError from_config_sect cmd_dict config).1 in
  let n := length (filter (fun c => c = id) (map snd cmd_dict)) in
  Startup.emit_connected conns attr id tpl
  = SignalEmitted (attr id) tpl
      :: concat (replicate n (Startup.slot_events (attr id) tpl))
  /\ (n = 1 -> Startup.emit_connected conns attr id tpl = emit (attr id) tpl)
  /\ (n = 0 -> Startup.emit_connected conns attr id tpl
               = [SignalEmitted (attr id) tpl]).
Proof.
  cbv zeta. rewrite init_cmds_connects_every_command_aux.
  unfold Startup.emit_connected. rewrite slot_runs_per_connection.
  split; [reflexivity|]. split; intros ->; cbn [replicate concat].
  - rewrite app_nil_r. reflexivity.
  - reflexivity.
Qed.

Example emission_of_an_aliased_command :
  Startup.emit_connected
    (Startup.connections
       (Startup.init_cmds (fun _ => false) (fun _ => PyEval.Returned tt)
          [("quit", 0); ("q", 0); ("open", 1)] ∅).1)
    (fun _ => mkCommand false) 0 (None, ["quit"])
  = [SignalEmitted (mkCommand false) (None, ["quit"]);
     HandlerCalled (mkCall app_quit [] None);
     HandlerCalled (mkCall app_quit [] None)].
Proof. vm_compute. reflexivity. Qed.

(** The effects of [init_cmds] are registrations, connections of commands
    and the reading of the key bindings. *)
Lemma init_cmds_effects
    (is_KeyError : PyEval.exception -> bool)
    (from_config_sect : list (string * string) -> PyEval.result unit)
    (cmd_dict : list (string * nat))
    (config : gmap string (list (string * string))) (eff : Startup.effect) :
  In eff (Startup.init_cmds is_KeyError from_config_sect cmd_dict config).1 ->
  eff = Startup.RegisterAll
  \/ (exists c, eff = Startup.ConnectCmd c)
  \/ (exists sect, eff = Startup.FromConfigSect sect).
Proof.
  unfold Startup.init_cmds.
  assert (Hmap : In eff (map (fun kv : string * nat => Startup.ConnectCmd kv.2) cmd_dict)
                 -> exists c, eff = Startup.ConnectCmd c).
  { intros Hin. apply in_map_iff in Hin as [[k c] [Heq _]]. eauto. }
  destruct (config !! "keybind") as [sect|]; cbn [fst].
  - intros [Hr|Hin]; [left; congruence|].
    apply in_app_iff in Hin as [Hin|[Hs|[]]]; [right; left; auto|].
    right; right. eauto.
  - intros [Hr|Hin]; [left; congruence|]. right; left; auto.
Qed.

(** X11.  An invalid log level stops start-up before anything else is set
    up: [__init__] raises the [ValueError] of [initlog] having only
    installed the temporary hook, enabled the fault handler and parsed the
    options; the configuration is not initialised, no parser and no window
    are created and no signal is connected. *)
Theorem init_invalid_loglevel_aborts
    (upper_non_ascii : string -> string)
    (logging_getattr : string -> option Startup.attribute)
    (is_KeyError : PyEval.exception -> bool)
    (from_config_sect : list (string * string) -> PyEval.result unit)
    (SIGINT : Z) (args : Startup.options) (user_config_dir : string)
    (cmd_dict : list (string * nat))
    (config : gmap string (list (string * string))) :
  (forall n, logging_getattr
               (Startup.str_upper upper_non_ascii (Startup.loglevel args))
             <> Some (Startup.IntAttr n)) ->
  Startup.init upper_non_ascii logging_getattr is_KeyError from_config_sect
    SIGINT args user_config_dir cmd_dict config
  = ([Startup.QApplicationInit; Startup.SetExcepthook Hooks.Initializing;
      Startup.FaulthandlerEnable; Startup.ParseArgs],
     PyEval.Raised
       (Startup.ValueError ("Invalid log level: " ++ Startup.loglevel args))).
Proof.
  intros Hbad. unfold Startup.init, Startup.initlog.
  destruct (logging_getattr
              (Startup.str_upper upper_non_ascii (Startup.loglevel args)))
    as [[n|]|]; [|reflexivity|reflexivity].
  exfalso. exact (Hbad n eq_refl).
Qed.

Lemma init_invalid_loglevel_aborts_witness :
  Startup.init (fun s => s) (fun _ => None) (fun _ => false)
    (fun _ => PyEval.Returned tt) 2
    (Startup.mkOptions "loud" None) "/home/user/.config/qutebrowser"
    [("quit", 0)] ∅
  = ([Startup.QApplicationInit; Startup.SetExcepthook Hooks.Initializing;
      Startup.FaulthandlerEnable; Startup.ParseArgs],
     PyEval.Raised (Startup.ValueError "Invalid log level: loud")).
Proof.
  apply (init_invalid_loglevel_aborts (fun s => s) (fun _ => None)
           (fun _ => false)
           (fun _ => PyEval.Returned tt) 2 (Startup.mkOptions "loud" None)
           "/home/user/.config/qutebrowser" [("quit", 0)] ∅).
  intros n. discriminate.
Defined.

(** X12.  [config.init] is called only once the log level has been
    accepted, and with the directory chosen from the option [--confdir]:
    the given directory when it is not empty, no directory at all exactly
    when the option is the empty string, and the user's configuration
    directory when the option is absent. *)
Theorem init_confdir
    (upper_non_ascii : string -> string)
    (logging_getattr : string -> option Startup.attribute)
    (is_KeyError : PyEval.exception -> bool)
    (from_config_sect : list (string * string) -> PyEval.result unit)
    (SIGINT : Z) (args : Startup.options) (user_config_dir : string)
    (cmd_dict : list (string * nat))
    (config : gmap string (list (string * string))) :
  (forall d,
      In (Startup.ConfigInit d)
         (Startup.init upper_non_ascii logging_getattr is_KeyError
            from_config_sect SIGINT args user_config_dir cmd_dict config).1
      <-> (exists n, Startup.initlog upper_non_ascii logging_getattr args
                     = PyEval.Returned n)
          /\ d = match Startup.confdir args with
                 | None => Some user_config_dir
                 | Some dir => if decide (dir = "") then None else Some dir
                 end)
  /\ (Startup.select_confdir args user_config_dir = None
      <-> Startup.confdir args = Some "").
Proof.
  split.
  - intros d. unfold Startup.init.
    destruct (Startup.initlog upper_non_ascii logging_getattr args) as [level|e].
    + destruct (Startup.init_cmds is_KeyError from_config_sect cmd_dict config)
        as [cmds r] eqn:E.
      assert (Hcmds : ~ In (Startup.ConfigInit d) cmds).
      { intros Hin.
        pose proof (init_cmds_effects is_KeyError from_config_sect cmd_dict
                      config (Startup.ConfigInit d)) as H.
        rewrite E in H. destruct (H Hin) as [H1|[[c H2]|[s H3]]]; discriminate. }
      fold (Startup.select_confdir args user_config_dir).
      split.
      * intros Hin. split; [eauto|].
        destruct r as [u|e]; cbn [fst] in Hin;
          repeat (apply in_app_iff in Hin as [Hin|Hin]);
          try contradiction;
          simpl in Hin; intuition (try discriminate; congruence).
      * intros [_ ->]. destruct r as [u|e]; cbn [fst];
          apply in_app_iff; left; simpl; auto 10.
    + cbn [fst]. split.
      * simpl. intuition discriminate.
      * intros [[n Hn] _]. discriminate.
  - unfold Startup.select_confdir.
    destruct (Startup.confdir args) as [dir|]; [|split; discriminate].
    destruct (decide (dir = "")) as [->|Hne]; split; try reflexivity;
      try discriminate. intros H. inversion H. contradiction.
Qed.

Lemma first_index_exists (p : Startup.effect -> bool) (tr : list Startup.effect)
    (eff : Startup.effect) :
  In eff tr -> p eff = true -> exists j, Startup.first_index p tr = Some j.
Proof.
  induction tr as [|x tr IH]; [contradiction|].
  intros [->|Hin] Hp; simpl.
  - rewrite Hp. eauto.
  - destruct (p x); [eauto|]. destruct (IH Hin Hp) as [j ->]. simpl. eauto.
Qed.

(** X13.  The key parser is created before the main window exists: in every
    run of start-up that creates the main window, the key parser was built
    earlier in the run, and it is never handed a window; a run that
    completes has created the main window. *)
Theorem init_keyparser_before_window
    (upper_non_ascii : string -> string)
    (logging_getattr : string -> option Startup.attribute)
    (is_KeyError : PyEval.exception -> bool)
    (from_config_sect : list (string * string) -> PyEval.result unit)
    (SIGINT : Z) (args : Startup.options) (user_config_dir : string)
    (cmd_dict : list (string * nat))
    (config : gmap string (list (string * string))) :
  let run :=
    Startup.init upper_non_ascii logging_getattr is_KeyError from_config_sect
      SIGINT args user_config_dir cmd_dict config in
  (forall j, Startup.first_index Startup.is_NewMainWindow run.1 = Some j ->
     exists i, Startup.first_index Startup.is_NewKeyParser run.1 = Some i
               /\ i < j)
  /\ existsb Startup.keyparser_with_window run.1 = false
  /\ (run.2 = PyEval.Returned tt ->
      exists j, Startup.first_index Startup.is_NewMainWindow run.1 = Some j).
Proof.
  cbv zeta. unfold Startup.init.
  destruct (Startup.initlog upper_non_ascii logging_getattr args) as [level|e];
    [|repeat split; [intros j Hj; discriminate | discriminate]].
  destruct (Startup.init_cmds is_KeyError from_config_sect cmd_dict config)
    as [cmds r] eqn:E.
  assert (Hcmds : forall eff, In eff cmds ->
            Startup.is_NewMainWindow eff = false
            /\ Startup.keyparser_with_window eff = false).
  { intros eff Hin.
    pose proof (init_cmds_effects is_KeyError from_config_sect cmd_dict
                  config eff) as H.
    rewrite E in H.
    destruct (H Hin) as [->|[[c ->]|[s ->]]]; split; reflexivity. }
  split; [|split].
  - intros j Hj. exists 8. split.
    + destruct r; reflexivity.
    + destruct r; cbn in Hj;
        match type of Hj with
        | context [Startup.first_index ?p ?l] =>
            destruct (Startup.first_index p l) as [k|]; cbn in Hj;
            [inversion Hj; lia | discriminate]
        end.
  - apply not_true_is_false. intros Hex.
    apply existsb_exists in Hex as [eff [Hin Hk]].
    destruct r as [u|e]; cbn [fst] in Hin;
      repeat (apply in_app_iff in Hin as [Hin|Hin]);
      try (apply Hcmds in Hin as [_ Hin]; congruence);
      simpl in Hin;
      repeat (destruct Hin as [<-|Hin]; [discriminate|]); destruct Hin.
  - destruct r as [u|e]; [|discriminate]. intros _. cbn [fst].
    apply (first_index_exists _ _ Startup.NewMainWindow); [|reflexivity].
    apply in_app_iff. right. apply in_app_iff. right. simpl. auto.
Qed.
